(** * Runtime function overloading (function_overloading.py)

    A shallow embedding of the two classes of the module,
    [OverloadedFunction] (a list of candidate callables with first-match
    dispatch) and [Overloader] (a dict from qualified names to
    [OverloadedFunction] objects, with the [overload] decorator), and the
    properties of the dispatch mechanism proved over it.

    Python objects are modelled as follows.
    - A positional argument tuple is a [list value]; a keyword argument
      dict is an association list in insertion order.
    - A callable is what the module observes of it: the answers of
      [inspect.isfunction] and [inspect.ismethod], its [__qualname__]
      attribute (absent on ordinary instances), the result of
      [inspect.getfullargspec], its truth value, and what calling it
      does.  Candidates are
      callables with a signature: [getfullargspec] answers for each of
      them (on an object without one it raises, and the exception leaves
      [lookup] as it is).
    - Calling a candidate may have effects; they act on an abstract world
      [W], threaded through every call.  The interpreter state also keeps
      the list of candidate calls made so far.
    - [Overloader.registry] is a [gmap] from qualified names to dispatch
      sets.  Every [OverloadedFunction] object is created at one place
      ([Overloader.register]) and reachable only through its dict entry,
      so objects are modelled by value. *)

From stdpp Require Import gmap strings list pretty.

Open Scope string_scope.
Open Scope list_scope.
Open Scope nat_scope.

(** ** Python values seen by the module *)

(** [repr()] of an argument value and of a [str] dict key: the Python
    protocol behind [str.format] applied to a tuple and to a dict. *)
Class PyRepr (value : Type) := {
  repr : value → string;
  repr_str : string → string;
}.

(** The exceptions that can leave this module.  [OverloadedFunctionError]
    is the module's own class; the others are raised by the interpreter
    (attribute access, dict subscript, argument binding) or by a
    candidate. *)
Inductive exn (value : Type) : Type :=
  | OverloadedFunctionError (msg : string)
  | TypeError
  | AttributeError
  | KeyError (key : string)
  | CandidateError (payload : value).
Arguments OverloadedFunctionError {value} msg.
Arguments TypeError {value}.
Arguments AttributeError {value}.
Arguments KeyError {value} key.
Arguments CandidateError {value} payload.

(** How a call ends: it returns, or an exception propagates. *)
Inductive result (value A : Type) : Type :=
  | Return (a : A)
  | Raise (e : exn value).
Arguments Return {value A} a.
Arguments Raise {value A} e.

Abbreviation outcome value := (result value value).

(** ** [inspect.FullArgSpec] *)
Module FullArgSpec.
Record t (value : Type) : Type := mk {
  args : list string;
  varargs : option string;
  varkw : option string;
  defaults : option (list value);
  kwonlyargs : list string;
  kwonlydefaults : option (list (string * value));
  annotations : list (string * value);
}.
Arguments mk {value}.
Arguments args {value}.
Arguments varargs {value}.
Arguments varkw {value}.
Arguments defaults {value}.
Arguments kwonlyargs {value}.
Arguments kwonlydefaults {value}.
Arguments annotations {value}.

(** Python refuses two parameters of one name ("duplicate argument"), so
    the names of a signature are pairwise distinct. *)
Definition distinct_names {value} (s : t value) : Prop :=
  NoDup (args s ++ kwonlyargs s).
End FullArgSpec.

(** ** Callables *)

(** What [inspect.isfunction], [inspect.ismethod] and the attribute
    [__qualname__] tell of a callable.  Function objects and bound methods
    always have a [__qualname__]; another callable may have one (a class)
    or not (an instance of a class that defines [__call__], a
    [functools.partial] object). *)
Inductive callable_kind : Type :=
  | PlainFunction (qualname : string)
  | BoundMethod (qualname : string)
  | OtherCallable (qualname : option string).

Record callable (value W : Type) : Type := mk_callable {
  kind : callable_kind;
  truth : bool;
  getfullargspec : FullArgSpec.t value;
  apply : list value → list (string * value) → W → outcome value * W;
}.
Arguments mk_callable {value W}.
Arguments kind {value W}.
Arguments truth {value W}.
Arguments getfullargspec {value W}.
Arguments apply {value W}.

Definition isfunction {value W} (function : callable value W) : bool :=
  match kind function with PlainFunction _ => true | _ => false end.

Definition ismethod {value W} (function : callable value W) : bool :=
  match kind function with BoundMethod _ => true | _ => false end.

(** [function.__qualname__]; [None] stands for the [AttributeError]. *)
Definition qualname_attr {value W} (function : callable value W)
    : option string :=
  match kind function with
  | PlainFunction q | BoundMethod q => Some q
  | OtherCallable q => q
  end.

(** [bool(function)], the value [not function] negates.  A function
    object and a bound method are true.  Another callable is what its
    class makes of it through [__bool__] or [__len__] (the field [truth];
    true when the class defines neither): an instance of a [list]
    subclass with a [__call__] method is false while it is empty. *)
Definition py_truth {value W} (function : callable value W) : bool :=
  match kind function with
  | PlainFunction _ | BoundMethod _ => true
  | OtherCallable _ => truth function
  end.

(** [bool(x)] for [x] one of [fullargspec.varargs], [fullargspec.varkw]:
    [None], or the parameter's name, a non-empty identifier. *)
Definition py_bool (name : option string) : bool :=
  match name with Some _ => true | None => false end.

(** ** Interpreter state *)

(** The world the candidates act on, and the candidate calls made so far
    (oldest first). *)
Record machine (value W : Type) : Type := mk_machine {
  world : W;
  executed : list (callable value W * list value * list (string * value));
}.
Arguments mk_machine {value W}.
Arguments world {value W}.
Arguments executed {value W}.

(** [function( *args, **kwargs)] for a candidate: its effect on the world
    and its outcome, whatever it is; the call is recorded. *)
Definition call_candidate {value W} (function : callable value W)
    (args : list value) (kwargs : list (string * value))
    (m : machine value W) : outcome value * machine value W :=
  let '(r, w) := apply function args kwargs (world m) in
  (r, mk_machine w (executed m ++ [(function, args, kwargs)])).

(** [str(args)] for the tuple [args]. *)
Definition str_tuple {value} `{!PyRepr value} (args : list value) : string :=
  match args with
  | [x] => "(" +:+ repr x +:+ ",)"
  | _ => "(" +:+ String.concat ", " (repr <$> args) +:+ ")"
  end.

(** [str(kwargs)] for the dict [kwargs]. *)
Definition str_dict {value} `{!PyRepr value} (kwargs : list (string * value))
    : string :=
  "{" +:+ String.concat ", "
            ((λ item, repr_str item.1 +:+ ": " +:+ repr item.2) <$> kwargs)
      +:+ "}".

(** ** class OverloadedFunction *)
Module OverloadedFunction.
Record t (value W : Type) : Type := mk {
  registry : list (callable value W);
}.
Arguments mk {value W}.
Arguments registry {value W}.

(** [__init__] *)
Definition init {value W} : t value W := mk [].

(** The test [lookup] applies to one candidate: the conditions of its two
    nested [if]s. *)
Definition accepts {value W} (function : callable value W)
    (args : list value) (kwargs : list (string * value)) : bool :=
  let fullargspec := getfullargspec function in
  (bool_decide (length args ≤ length (FullArgSpec.args fullargspec))
     || py_bool (FullArgSpec.varargs fullargspec))
  && (let remaining_args :=
        drop (length args) (FullArgSpec.args fullargspec) in
      bool_decide (kwargs.*1 ⊆ remaining_args)
        || py_bool (FullArgSpec.varkw fullargspec)).

(** The [for] loop of [lookup].  Falling off the end of the loop is
    Python's implicit [return None]. *)
Fixpoint lookup_in {value W} (candidates : list (callable value W))
    (args : list value) (kwargs : list (string * value))
    : option (callable value W) :=
  match candidates with
  | [] => None
  | function :: later =>
      let fullargspec := getfullargspec function in
      if bool_decide (length args ≤ length (FullArgSpec.args fullargspec))
           || py_bool (FullArgSpec.varargs fullargspec)
      then
        let remaining_args :=
          drop (length args) (FullArgSpec.args fullargspec) in
        if bool_decide (kwargs.*1 ⊆ remaining_args)
             || py_bool (FullArgSpec.varkw fullargspec)
        then Some function
        else lookup_in later args kwargs
      else lookup_in later args kwargs
  end.

Definition lookup {value W} (self : t value W)
    (args : list value) (kwargs : list (string * value))
    : option (callable value W) :=
  lookup_in (registry self) args kwargs.

(** [self.registry.append(function)] *)
Definition register {value W} (self : t value W)
    (function : callable value W) : t value W :=
  mk (registry self ++ [function]).

(** [not function] for the result of [lookup]: it holds of [None] and of
    a callable that is false. *)
Definition py_not {value W} (function : option (callable value W)) : bool :=
  match function with
  | None => true
  | Some function => negb (py_truth function)
  end.

(** The body of [__call__], on its parameters [args] and [kwargs]. *)
Definition __call__ {value W} `{!PyRepr value} (self : t value W)
    (args : list value) (kwargs : list (string * value))
    (m : machine value W) : outcome value * machine value W :=
  let function := lookup self args kwargs in
  if py_not function then
    (Raise (OverloadedFunctionError
              ("Failed to find matching function for given arguments: "
               +:+ "args=" +:+ str_tuple args
               +:+ ", kwargs=" +:+ str_dict kwargs)), m)
  else
    match function with
    | Some function => call_candidate function args kwargs m
    | None => (Raise TypeError, m) (* calling [None]; [py_not None] is true *)
    end.

(** The call expression [self( *pos, **kw)]: the arguments are bound to the
    parameters of [def __call__(self, *args, **kwargs)], then the body
    runs.  The object itself is the value of [self], so a keyword named
    [self] is a second value for that parameter and the binding raises
    [TypeError]; every other keyword goes to [kwargs]. *)
Definition call {value W} `{!PyRepr value} (self : t value W)
    (pos : list value) (kw : list (string * value))
    (m : machine value W) : outcome value * machine value W :=
  if bool_decide ("self" ∈ kw.*1) then (Raise TypeError, m)
  else __call__ self pos kw m.
End OverloadedFunction.

(** ** class Overloader *)
Module Overloader.
Record t (value W : Type) : Type := mk {
  registry : gmap string (OverloadedFunction.t value W);
}.
Arguments mk {value W}.
Arguments registry {value W}.

(** [__init__] *)
Definition init {value W} : t value W := mk ∅.

(** The candidates registered under a qualified name, in the order of
    the dispatch set's list; none when the name is unknown. *)
Definition candidates {value W} (self : t value W) (qualname : string)
    : list (callable value W) :=
  match registry self !! qualname with
  | Some overloaded => OverloadedFunction.registry overloaded
  | None => []
  end.

(** [register]: the state after the call, or the exception.  Reading
    [function.__qualname__] comes first, so an [AttributeError] leaves the
    registry as it was. *)
Definition register {value W} (self : t value W)
    (function : callable value W) : result value (t value W) :=
  match qualname_attr function with
  | None => Raise AttributeError
  | Some qualname =>
      let registry1 :=
        match registry self !! qualname with
        | None => <[qualname := OverloadedFunction.init]> (registry self)
        | Some _ => registry self
        end in
      match registry1 !! qualname with
      | None => Raise (KeyError qualname)
      | Some overloaded =>
          Return (mk (<[qualname :=
                          OverloadedFunction.register overloaded function]>
                        registry1))
      end
  end.

(** The closures [overload] returns.  Each captures [function]; [self] is
    the controller object, whose current state is read when the closure is
    called. *)
Inductive wrapper (value W : Type) : Type :=
  | function_wrapper (function : callable value W)
  | method_wrapper (function : callable value W).
Arguments function_wrapper {value W} function.
Arguments method_wrapper {value W} function.

(** [overload]: the state after the call and the object returned, [None]
    when neither [if] is taken. *)
Definition overload {value W} (self : t value W)
    (function : callable value W)
    : result value (t value W * option (wrapper value W)) :=
  match register self function with
  | Raise e => Raise e
  | Return self' =>
      if isfunction function then
        Return (self', Some (function_wrapper function))
      else if ismethod function then
        Return (self', Some (method_wrapper function))
      else Return (self', None)
  end.

(** Binding of a call to [def method_wrapper(_self, *args, **kwargs)]:
    [_self] takes the first positional argument, or else the keyword
    [_self]; no value or two values for it is a [TypeError] ([None]). *)
Definition bind_method_wrapper {value} (pos : list value)
    (kw : list (string * value))
    : option (value * list value * list (string * value)) :=
  match pos with
  | _self :: args =>
      if bool_decide ("_self" ∈ kw.*1) then None
      else Some (_self, args, kw)
  | [] =>
      match list_find (λ item, item.1 = "_self") kw with
      | Some (_, item) =>
          Some (item.2, [], filter (λ item, item.1 ≠ "_self") kw)
      | None => None
      end
  end.

(** Calling a wrapper with the call's arguments, in the controller state
    of the time of the call. *)
Definition call_wrapper {value W} `{!PyRepr value} (w : wrapper value W)
    (self : t value W) (pos : list value) (kw : list (string * value))
    (m : machine value W) : outcome value * machine value W :=
  match w with
  | function_wrapper function =>
      let args := pos in
      let kwargs := kw in
      match qualname_attr function with
      | None => (Raise AttributeError, m)
      | Some qualname =>
          match registry self !! qualname with
          | None => (Raise (KeyError qualname), m)
          | Some _function => OverloadedFunction.call _function args kwargs m
          end
      end
  | method_wrapper function =>
      match bind_method_wrapper pos kw with
      | None => (Raise TypeError, m)
      | Some (_self, args, kwargs) =>
          match qualname_attr function with
          | None => (Raise AttributeError, m)
          | Some qualname =>
              match registry self !! qualname with
              | None => (Raise (KeyError qualname), m)
              | Some _function =>
                  (* _function(self=_self, *args, **kwargs): a key [self]
                     of [kwargs] repeats the keyword [self] *)
                  if bool_decide ("self" ∈ kwargs.*1) then (Raise TypeError, m)
                  else OverloadedFunction.call _function args
                         (("self", _self) :: kwargs) m
              end
          end
      end
  end.

(** A sequence of [register] calls, one per element of [functions].  A
    call that raises leaves the registry as it was, and the next call
    goes on from there. *)
Definition register_all {value W} (self : t value W)
    (functions : list (callable value W)) : t value W :=
  foldl (λ state function,
           match register state function with
           | Return state' => state'
           | Raise _ => state
           end) self functions.
End Overloader.

(** ** Sample programs

    Concrete values and overload sets on which the general statements are
    exercised: the scenarios of the module's intended use. *)

Inductive pyvalue : Type :=
  | PyNone
  | PyInt (n : Z)
  | PyStr (s : string)
  | PyObject (class_name : string).

(** [repr] on the sample values.  The [str] case is exact for text without
    quotes, backslashes or control characters, the only text used below;
    the [repr] of an object is schematic (Python adds the module and the
    address). *)
#[export] Instance pyvalue_repr : PyRepr pyvalue := {|
  repr v :=
    match v with
    | PyNone => "None"
    | PyInt n => pretty n
    | PyStr s => "'" +:+ s +:+ "'"
    | PyObject c => "<" +:+ c +:+ " object>"
    end;
  repr_str s := "'" +:+ s +:+ "'";
|}.

(** The sample world is what has been printed so far. *)
Definition stdout : Type := list string.

Definition signature (names : list string) : FullArgSpec.t pyvalue :=
  FullArgSpec.mk names None None None [] None [].

(** [def add(x, y): return x + y] *)
Definition add_xy : callable pyvalue stdout :=
  mk_callable (PlainFunction "add") true (signature ["x"; "y"])
    (λ args kwargs out,
       match args, kwargs with
       | [PyInt x; PyInt y], [] => (Return (PyInt (x + y)), out)
       | _, _ => (Raise TypeError, out)
       end).

(** [def add(x, y, z): return x + y + z] *)
Definition add_xyz : callable pyvalue stdout :=
  mk_callable (PlainFunction "add") true (signature ["x"; "y"; "z"])
    (λ args kwargs out,
       match args, kwargs with
       | [PyInt x; PyInt y; PyInt z], [] => (Return (PyInt (x + y + z)), out)
       | _, _ => (Raise TypeError, out)
       end).

(** [print(greeting + ", " + name)] *)
Definition print_greeting (greeting name : string) (out : stdout)
    : outcome pyvalue * stdout :=
  (Return PyNone, out ++ [greeting +:+ ", " +:+ name]).

(** [def greet(name): print("hello" + ", " + name)] *)
Definition greet_name : callable pyvalue stdout :=
  mk_callable (PlainFunction "greet") true (signature ["name"])
    (λ args kwargs out,
       match args, kwargs with
       | [PyStr name], [] => print_greeting "hello" name out
       | [], [(key, PyStr name)] =>
           if bool_decide (key = "name") then print_greeting "hello" name out
           else (Raise TypeError, out)
       | _, _ => (Raise TypeError, out)
       end).

(** [def greet(name, greeting="hi"): print(greeting + ", " + name)] *)
Definition greet_name_greeting : callable pyvalue stdout :=
  mk_callable (PlainFunction "greet") true
    (FullArgSpec.mk ["name"; "greeting"] None None (Some [PyStr "hi"])
       [] None [])
    (λ args kwargs out,
       match args, kwargs with
       | [PyStr name], [] => print_greeting "hi" name out
       | [PyStr name; PyStr greeting], [] => print_greeting greeting name out
       | [PyStr name], [(key, PyStr greeting)] =>
           if bool_decide (key = "greeting")
           then print_greeting greeting name out
           else (Raise TypeError, out)
       | _, _ => (Raise TypeError, out)
       end).


(** [def connect(host, *, timeout): print("connect" + ", " + host)] *)
Definition connect : callable pyvalue stdout :=
  mk_callable (PlainFunction "connect") true
    (FullArgSpec.mk ["host"] None None None ["timeout"] None [])
    (λ args kwargs out,
       match args, kwargs with
       | [PyStr host], [(key, PyInt _)] =>
           if bool_decide (key = "timeout")
           then print_greeting "connect" host out
           else (Raise TypeError, out)
       | _, _ => (Raise TypeError, out)
       end).

(** [Greeter().hello] for
    [class Greeter: def hello(self, name): print("hello" + ", " + name)]:
    a bound method.  Its [getfullargspec] still lists [self]; a call gives
    it the arguments after the receiver. *)
Definition Greeter_hello : callable pyvalue stdout :=
  mk_callable (BoundMethod "Greeter.hello") true (signature ["self"; "name"])
    (λ args kwargs out,
       match args, kwargs with
       | [PyStr name], [] => print_greeting "hello" name out
       | _, _ => (Raise TypeError, out)
       end).

(** The class [Greeter] itself: callable, with a [__qualname__], neither
    a function nor a method. *)
Definition Greeter_class : callable pyvalue stdout :=
  mk_callable (OtherCallable (Some "Greeter")) true (signature [])
    (λ args kwargs out,
       match args, kwargs with
       | [], [] => (Return (PyObject "Greeter"), out)
       | _, _ => (Raise TypeError, out)
       end).

(** An instance of [class Doubler: def __call__(self, n): return 2 * n]:
    callable, without a [__qualname__] attribute. *)
Definition doubler_instance : callable pyvalue stdout :=
  mk_callable (OtherCallable None) true (signature ["self"; "n"])
    (λ args kwargs out,
       match args, kwargs with
       | [PyInt n], [] => (Return (PyInt (2 * n)), out)
       | _, _ => (Raise TypeError, out)
       end).

(** [def add( *args, **kwargs): print("add" + ", " + "anything")] *)
Definition add_anything : callable pyvalue stdout :=
  mk_callable (PlainFunction "add") true
    (FullArgSpec.mk [] (Some "args") (Some "kwargs") None [] None [])
    (λ args kwargs out, print_greeting "add" "anything" out).


(** An instance, still empty, of
    [class Handlers(list): def __call__(self, event): print(...)]:
    callable, without a [__qualname__], and false as an empty list is. *)
Definition empty_handlers : callable pyvalue stdout :=
  mk_callable (OtherCallable None) false (signature ["self"; "event"])
    (λ args kwargs out,
       match args, kwargs with
       | [PyStr event], [] => print_greeting "handled" event out
       | _, _ => (Raise TypeError, out)
       end).

Definition add_overloads : OverloadedFunction.t pyvalue stdout :=
  OverloadedFunction.register
    (OverloadedFunction.register OverloadedFunction.init add_xy) add_xyz.

Definition greet_overloads : OverloadedFunction.t pyvalue stdout :=
  OverloadedFunction.register
    (OverloadedFunction.register OverloadedFunction.init greet_name)
    greet_name_greeting.

Definition fresh_machine : machine pyvalue stdout := mk_machine [] [].

(** ** The acceptance test as the specification words it

    Positional compatibility: no more positional arguments than named
    parameters, or a varargs parameter.  Keyword compatibility: every
    keyword names a parameter at a position at or after the number of
    positional arguments, or there is a varkw parameter. *)

Definition spec_positional_compatible {value} (s : FullArgSpec.t value)
    (n_positional : nat) : Prop :=
  n_positional ≤ length (FullArgSpec.args s) ∨ FullArgSpec.varargs s ≠ None.

Definition spec_remaining_parameter {value} (s : FullArgSpec.t value)
    (n_positional : nat) (name : string) : Prop :=
  ∃ position,
    n_positional ≤ position ∧ FullArgSpec.args s !! position = Some name.

Definition spec_keyword_compatible {value} (s : FullArgSpec.t value)
    (n_positional : nat) (keywords : list string) : Prop :=
  (∀ name, name ∈ keywords → spec_remaining_parameter s n_positional name)
  ∨ FullArgSpec.varkw s ≠ None.

Definition spec_accepts {value W} (function : callable value W)
    (args : list value) (kwargs : list (string * value)) : Prop :=
  spec_positional_compatible (getfullargspec function) (length args)
  ∧ spec_keyword_compatible (getfullargspec function) (length args)
      (kwargs.*1).


(** A text embeds another when it holds it as a contiguous part. *)
Definition embeds (part whole : string) : Prop :=
  ∃ before after, whole = before +:+ part +:+ after.

(** * Properties of the dispatch set *)

Lemma string_append_assoc (a b c : string) :
  (a +:+ b) +:+ c = a +:+ (b +:+ c).
Proof.
  induction a as [|x a IH]; [done|].
  change (String x ((a +:+ b) +:+ c) = String x (a +:+ b +:+ c)).
  by f_equal.
Qed.

Lemma string_append_nil_r (a : string) : a +:+ "" = a.
Proof.
  induction a as [|x a IH]; [done|].
  change (String x (a +:+ "") = String x a). by f_equal.
Qed.

Lemma embeds_refl part : embeds part part.
Proof.
  exists "", "". change ("" +:+ part +:+ "") with (part +:+ "").
  by rewrite string_append_nil_r.
Qed.

Lemma embeds_append_l part whole a :
  embeds part whole → embeds part (a +:+ whole).
Proof.
  intros (before & after & ->). exists (a +:+ before), after.
  by rewrite string_append_assoc.
Qed.

Lemma embeds_append_r part whole b :
  embeds part whole → embeds part (whole +:+ b).
Proof.
  intros (before & after & ->). exists before, (after +:+ b).
  by rewrite !string_append_assoc.
Qed.

Lemma embeds_concat sep (parts : list string) part :
  part ∈ parts → embeds part (String.concat sep parts).
Proof.
  induction parts as [|first parts IH]; [by intros ?%elem_of_nil|].
  destruct parts as [|second parts].
  - intros ->%list_elem_of_singleton. apply embeds_refl.
  - change (String.concat sep (first :: second :: parts))
      with (first +:+ sep +:+ String.concat sep (second :: parts)).
    intros [->|Hin]%elem_of_cons.
    + apply embeds_append_r, embeds_refl.
    + by apply embeds_append_l, embeds_append_l, IH.
Qed.

Lemma embeds_str_tuple {value} `{!PyRepr value} (args : list value) v :
  v ∈ args → embeds (repr v) (str_tuple args).
Proof.
  intros Hin.
  assert (embeds (repr v) ("(" +:+ String.concat ", " (repr <$> args) +:+ ")"))
    as Hgeneral.
  { apply embeds_append_l, embeds_append_r, embeds_concat.
    by apply list_elem_of_fmap_2. }
  destruct args as [|x [|y args]]; [done| |done].
  apply list_elem_of_singleton in Hin as ->.
  apply embeds_append_l, embeds_append_r, embeds_refl.
Qed.

Lemma embeds_str_dict {value} `{!PyRepr value}
    (kwargs : list (string * value)) k v :
  (k, v) ∈ kwargs → embeds (repr_str k +:+ ": " +:+ repr v) (str_dict kwargs).
Proof.
  intros Hin. unfold str_dict.
  apply embeds_append_l, embeds_append_r, embeds_concat.
  by apply (list_elem_of_fmap_2
              (λ item, repr_str item.1 +:+ ": " +:+ repr item.2) _ (k, v)).
Qed.

Section Dispatch.
Context {value W : Type} `{!PyRepr value}.
Implicit Types (function f g : callable value W).
Implicit Types (self : OverloadedFunction.t value W).
Implicit Types (args : list value) (kwargs : list (string * value)).
Implicit Types (m : machine value W).

Import OverloadedFunction.

Lemma py_bool_true name : py_bool name = true ↔ name ≠ None.
Proof. destruct name; simpl; split; congruence. Qed.

Lemma lookup_in_cons f later args kwargs :
  lookup_in (f :: later) args kwargs =
    if accepts f args kwargs then Some f else lookup_in later args kwargs.
Proof.
  unfold accepts. simpl.
  destruct (bool_decide _ || py_bool (FullArgSpec.varargs _)); simpl; [|done].
  by destruct (bool_decide _ || py_bool (FullArgSpec.varkw _)).
Qed.

Lemma lookup_in_first before f after args kwargs :
  Forall (λ g, accepts g args kwargs = false) before →
  accepts f args kwargs = true →
  lookup_in (before ++ f :: after) args kwargs = Some f.
Proof.
  intros Hbefore Hf.
  induction Hbefore as [|g before Hg _ IH]; simpl app.
  - by rewrite lookup_in_cons, Hf.
  - by rewrite lookup_in_cons, Hg.
Qed.

Lemma lookup_in_Some candidates f args kwargs :
  lookup_in candidates args kwargs = Some f →
  ∃ before after,
    candidates = before ++ f :: after
    ∧ Forall (λ g, accepts g args kwargs = false) before
    ∧ accepts f args kwargs = true.
Proof.
  induction candidates as [|g candidates IH]; [done|].
  rewrite lookup_in_cons.
  destruct (accepts g args kwargs) eqn:Hg.
  - intros [= ->]. by exists [], candidates.
  - intros (before & after & -> & Hbefore & Hf)%IH.
    exists (g :: before), after. split_and!; [done| by constructor |done].
Qed.

Lemma lookup_in_None candidates args kwargs :
  lookup_in candidates args kwargs = None ↔
  ∀ g, g ∈ candidates → accepts g args kwargs = false.
Proof.
  induction candidates as [|g candidates IH].
  - split; [|done]. by intros _ g ?%elem_of_nil.
  - rewrite lookup_in_cons. destruct (accepts g args kwargs) eqn:Hg.
    + split; [done|]. intros Hall.
      rewrite Hall in Hg by apply list_elem_of_here. done.
    + rewrite IH. split.
      * intros Hall g' [->|?]%elem_of_cons; auto.
      * intros Hall g' ?. apply Hall. by apply list_elem_of_further.
Qed.


Lemma elem_of_drop_lookup (names : list string) n name :
  name ∈ drop n names ↔ ∃ i, n ≤ i ∧ names !! i = Some name.
Proof.
  rewrite list_elem_of_lookup. split.
  - intros [i Hi]. rewrite lookup_drop in Hi. exists (n + i). split; [lia|done].
  - intros (i & Hle & Hi). exists (i - n). rewrite lookup_drop.
    by replace (n + (i - n)) with i by lia.
Qed.

Lemma accepts_spec f args kwargs :
  accepts f args kwargs = true ↔ spec_accepts f args kwargs.
Proof.
  unfold accepts, spec_accepts, spec_positional_compatible,
    spec_keyword_compatible, spec_remaining_parameter.
  rewrite andb_true_iff, !orb_true_iff, !bool_decide_eq_true, !py_bool_true.
  apply and_iff_compat_l, or_iff_compat_r.
  split; intros Hsub name Hname.
  - by apply elem_of_drop_lookup, Hsub.
  - by apply elem_of_drop_lookup, Hsub.
Qed.

Lemma call_keyword_self self args kwargs m :
  "self" ∈ kwargs.*1 → call self args kwargs m = (Raise TypeError, m).
Proof. intros Hself. unfold call. by rewrite bool_decide_eq_true_2. Qed.

Lemma call_without_keyword_self self args kwargs m :
  "self" ∉ kwargs.*1 → call self args kwargs m = __call__ self args kwargs m.
Proof. intros Hself. unfold call. by rewrite bool_decide_eq_false_2. Qed.

Lemma call_body_of_lookup self args kwargs m f :
  lookup self args kwargs = Some f →
  py_truth f = true →
  __call__ self args kwargs m = call_candidate f args kwargs m.
Proof.
  intros Hlookup Htruth. unfold __call__. rewrite Hlookup. simpl.
  by rewrite Htruth.
Qed.

Lemma call_body_without_candidate self args kwargs m :
  lookup self args kwargs = None →
  __call__ self args kwargs m =
    (Raise (OverloadedFunctionError
              ("Failed to find matching function for given arguments: args="
               +:+ str_tuple args +:+ ", kwargs=" +:+ str_dict kwargs)), m).
Proof. intros Hlookup. unfold __call__. by rewrite Hlookup. Qed.

Lemma call_body_of_false_candidate self args kwargs m f :
  lookup self args kwargs = Some f →
  py_truth f = false →
  __call__ self args kwargs m =
    (Raise (OverloadedFunctionError
              ("Failed to find matching function for given arguments: args="
               +:+ str_tuple args +:+ ", kwargs=" +:+ str_dict kwargs)), m).
Proof.
  intros Hlookup Htruth. unfold __call__. rewrite Hlookup. simpl.
  by rewrite Htruth.
Qed.


(** C2 (as amended).  When no registered candidate passes the acceptance
    test, [lookup] finds nothing.  Invoking the dispatch set with a
    keyword named [self] raises [TypeError]; invoking it without one
    raises [OverloadedFunctionError] with a message that holds the [repr]
    of every positional argument and, for every keyword argument, the
    [repr] of its name and of its value.  Either way the world and the
    list of executed candidate calls are as before: no candidate ran.
    (The dispatch set is only read: the call has no other state to
    change.) *)
Theorem call_without_accepting_candidate self args kwargs m :
  (∀ f, f ∈ registry self → accepts f args kwargs = false) →
  lookup self args kwargs = None
  ∧ ("self" ∈ kwargs.*1 → call self args kwargs m = (Raise TypeError, m))
  ∧ ∃ msg,
      msg = "Failed to find matching function for given arguments: args="
            +:+ str_tuple args +:+ ", kwargs=" +:+ str_dict kwargs
      ∧ ("self" ∉ kwargs.*1 →
         call self args kwargs m = (Raise (OverloadedFunctionError msg), m))
      ∧ (∀ v, v ∈ args → embeds (repr v) msg)
      ∧ (∀ k v, (k, v) ∈ kwargs →
                embeds (repr_str k +:+ ": " +:+ repr v) msg).
Proof.
  intros Hnone%lookup_in_None.
  split; [done|]. split; [apply call_keyword_self|].
  eexists. split; [done|]. split_and!.
  - intros Hself. rewrite (call_without_keyword_self _ _ _ _ Hself).
    by apply call_body_without_candidate.
  - intros v Hv. by apply embeds_append_l, embeds_append_r, embeds_str_tuple.
  - intros k v Hkv.
    by apply embeds_append_l, embeds_append_l, embeds_append_l,
      embeds_str_dict.
Qed.

(** C3. A candidate is accepted exactly when the call is positionally
    compatible (no more positional arguments than named parameters, or
    varargs) and keyword compatible (every keyword among the parameters at
    positions at or after the number of positional arguments, or varkw);
    and [lookup] applies this test to the candidates in turn. *)
Theorem accepts_iff_spec f args kwargs :
  (accepts f args kwargs = true ↔ spec_accepts f args kwargs)
  ∧ ∀ later,
      lookup (mk (f :: later)) args kwargs =
        if accepts f args kwargs then Some f
        else lookup (mk later) args kwargs.
Proof.
  split; [apply accepts_spec|]. intros later. apply lookup_in_cons.
Qed.


(** C9. A candidate with keyword-only parameters and no varkw rejects
    every call that passes one of them by keyword: the test reads
    [fullargspec.args] only, where a keyword-only name cannot occur. *)
Theorem keyword_only_argument_rejected f args kwargs name :
  FullArgSpec.distinct_names (getfullargspec f) →
  FullArgSpec.varkw (getfullargspec f) = None →
  name ∈ FullArgSpec.kwonlyargs (getfullargspec f) →
  name ∈ kwargs.*1 →
  accepts f args kwargs = false.
Proof.
  intros Hdistinct Hvarkw Hkwonly Hname.
  apply NoDup_app in Hdistinct as (_ & Hdisjoint & _).
  unfold accepts. rewrite Hvarkw. simpl.
  rewrite (bool_decide_eq_false_2 (_ ⊆ _)); [by rewrite andb_false_r|].
  intros Hsub. apply (Hdisjoint name); [|done].
  eapply subseteq_drop. by apply Hsub.
Qed.

(** C7. With [greet(name)] registered before [greet(name, greeting)], the
    call [greet(a, greeting=y)] resolves to the second candidate: after
    one positional argument the first has no parameter left to take the
    keyword [greeting], the second has [greeting] left. *)
Theorem greet_keyword_call_resolves_to_second f1 f2 (a y : value) :
  FullArgSpec.args (getfullargspec f1) = ["name"] →
  FullArgSpec.varargs (getfullargspec f1) = None →
  FullArgSpec.varkw (getfullargspec f1) = None →
  FullArgSpec.args (getfullargspec f2) = ["name"; "greeting"] →
  drop (length [a]) (FullArgSpec.args (getfullargspec f1)) = []
  ∧ accepts f1 [a] [("greeting", y)] = false
  ∧ "greeting" ∈ drop (length [a]) (FullArgSpec.args (getfullargspec f2))
  ∧ accepts f2 [a] [("greeting", y)] = true
  ∧ lookup (register (register init f1) f2) [a] [("greeting", y)] = Some f2.
Proof.
  intros Hargs1 Hvarargs1 Hvarkw1 Hargs2.
  assert (accepts f1 [a] [("greeting", y)] = false) as Hrej.
  { unfold accepts. rewrite Hargs1, Hvarargs1, Hvarkw1. done. }
  assert (accepts f2 [a] [("greeting", y)] = true) as Hacc.
  { unfold accepts. rewrite Hargs2. done. }
  split_and!; try done.
  - by rewrite Hargs1.
  - rewrite Hargs2. apply list_elem_of_here.
  - unfold lookup, register, init. cbn [registry app].
    by rewrite !lookup_in_cons, Hrej, Hacc.
Qed.

End Dispatch.

(** * Properties of the controller *)

Section Controller.
Context {value W : Type} `{!PyRepr value}.
Implicit Types (function f g : callable value W).
Implicit Types (self state : Overloader.t value W).
Implicit Types (pos : list value) (kw : list (string * value)).
Implicit Types (m : machine value W).

Import Overloader.

Lemma register_appends self f q :
  qualname_attr f = Some q →
  register self f =
    Return (mk (<[q := OverloadedFunction.mk (candidates self q ++ [f])]>
                  (registry self))).
Proof.
  intros Hq. unfold register, candidates. rewrite Hq.
  destruct (registry self !! q) as [d|] eqn:Hd.
  - by rewrite Hd.
  - rewrite lookup_insert_eq. by rewrite insert_insert_eq.
Qed.

Lemma register_without_qualname self f :
  qualname_attr f = None → register self f = Raise AttributeError.
Proof. intros Hq. unfold register. by rewrite Hq. Qed.

Lemma candidates_insert (reg : gmap string (OverloadedFunction.t value W))
    q q' l :
  candidates (mk (<[q := OverloadedFunction.mk l]> reg)) q' =
    if decide (q = q') then l else candidates (mk reg) q'.
Proof.
  unfold candidates. simpl. rewrite lookup_insert. by case_decide.
Qed.

Lemma register_all_cons self f functions :
  register_all self (f :: functions) =
    register_all
      (match register self f with Return s' => s' | Raise _ => self end)
      functions.
Proof. done. Qed.

Lemma register_all_lookup functions : ∀ self q,
  registry (register_all self functions) !! q =
    match registry self !! q,
          filter (λ f, qualname_attr f = Some q) functions with
    | None, [] => None
    | None, added => Some (OverloadedFunction.mk added)
    | Some d, added =>
        Some (OverloadedFunction.mk (OverloadedFunction.registry d ++ added))
    end.
Proof.
  induction functions as [|f functions IH]; intros self q.
  - simpl. destruct (registry self !! q) as [[l]|]; [|done].
    simpl. by rewrite app_nil_r.
  - rewrite register_all_cons, IH. rewrite filter_cons.
    destruct (qualname_attr f) as [qf|] eqn:Hqf.
    + rewrite (register_appends _ _ _ Hqf). simpl.
      rewrite lookup_insert. case_decide as Heq.
      * subst qf. rewrite decide_True by done. unfold candidates. simpl.
        destruct (registry self !! q) as [d|]; simpl.
        -- by rewrite <-app_assoc.
        -- done.
      * rewrite decide_False by congruence. done.
    + rewrite (register_without_qualname _ _ Hqf).
      rewrite decide_False by done. done.
Qed.

(** C6. [register] on a callable of qualified name [q] creates the
    dispatch set of [q] when the registry has none and appends to the one
    it has otherwise; so after any sequence of [register] calls the name
    [q] is bound, if at all, to the one dispatch set that lists the
    callables registered under [q], after those it held before, in their
    order of registration. *)
Theorem register_keeps_one_dispatch_set_per_name self functions q :
  (∀ f, qualname_attr f = Some q → registry self !! q = None →
     register self f =
       Return (mk (<[q := OverloadedFunction.mk [f]]> (registry self))))
  ∧ (∀ f d, qualname_attr f = Some q → registry self !! q = Some d →
       register self f =
         Return (mk (<[q := OverloadedFunction.mk
                              (OverloadedFunction.registry d ++ [f])]>
                       (registry self))))
  ∧ registry (register_all self functions) !! q =
      match registry self !! q,
            filter (λ f, qualname_attr f = Some q) functions with
      | None, [] => None
      | None, added => Some (OverloadedFunction.mk added)
      | Some d, added =>
          Some (OverloadedFunction.mk
                  (OverloadedFunction.registry d ++ added))
      end.
Proof.
  split_and!.
  - intros f Hq Hnone. rewrite (register_appends _ _ _ Hq).
    unfold candidates. by rewrite Hnone.
  - intros f d Hq Hsome. rewrite (register_appends _ _ _ Hq).
    unfold candidates. by rewrite Hsome.
  - apply register_all_lookup.
Qed.

Lemma overload_of_function self f q :
  kind f = PlainFunction q →
  overload self f =
    Return (mk (<[q := OverloadedFunction.mk (candidates self q ++ [f])]>
                  (registry self)),
            Some (function_wrapper f)).
Proof.
  intros Hkind. unfold overload.
  rewrite (register_appends self f q) by (unfold qualname_attr; by rewrite Hkind).
  unfold isfunction. by rewrite Hkind.
Qed.

(** C4. The wrapper [overload] returns for a plain function of qualified
    name [q] reads [self.registry[q]] when it is called: in whatever state
    the controller then is, the call is the call of the dispatch set bound
    to [q] in that state.  So a candidate registered under [q] after the
    wrapper was made is reached through the wrapper: when it accepts the
    call and no candidate before it does, it is the one selected, and it
    runs (unless it is an object that is false in a boolean context, which
    [__call__] reports as no match). *)
Theorem function_wrapper_dispatches_at_call_time self f q :
  kind f = PlainFunction q →
  ∃ self1 w,
    overload self f = Return (self1, Some w)
    ∧ candidates self1 q = candidates self q ++ [f]
    ∧ (∀ state pos kw m,
         call_wrapper w state pos kw m =
           match registry state !! q with
           | Some overloaded => OverloadedFunction.call overloaded pos kw m
           | None => (Raise (KeyError q), m)
           end)
    ∧ (∀ g self2 pos kw m,
         qualname_attr g = Some q →
         register self1 g = Return self2 →
         "self" ∉ kw.*1 →
         (∀ c, c ∈ candidates self1 q →
               OverloadedFunction.accepts c pos kw = false) →
         OverloadedFunction.accepts g pos kw = true →
         candidates self2 q = candidates self1 q ++ [g]
         ∧ call_wrapper w self2 pos kw m =
             if py_truth g then call_candidate g pos kw m
             else (Raise (OverloadedFunctionError
                            ("Failed to find matching function for given "
                             +:+ "arguments: args=" +:+ str_tuple pos
                             +:+ ", kwargs=" +:+ str_dict kw)), m)).
Proof.
  intros Hkind. eexists _, _. split; [by apply overload_of_function|].
  assert (qualname_attr f = Some q) as Hq
    by (unfold qualname_attr; by rewrite Hkind).
  split_and!.
  - rewrite candidates_insert. by rewrite decide_True.
  - intros state pos kw m. simpl. by rewrite Hq.
  - intros g self2 pos kw m Hg Hreg Hself Hrej Hacc.
    rewrite (register_appends _ _ _ Hg) in Hreg. injection Hreg as <-.
    split.
    + rewrite !candidates_insert. by rewrite !decide_True.
    + simpl. rewrite Hq. rewrite lookup_insert_eq.
      rewrite call_without_keyword_self by done.
      assert (OverloadedFunction.lookup
                (OverloadedFunction.mk
                   (candidates
                      (mk (<[q := OverloadedFunction.mk (candidates self q ++ [f])]>
                             (registry self))) q ++ [g])) pos kw = Some g)
        as Hlookup.
      { unfold OverloadedFunction.lookup. cbn [OverloadedFunction.registry].
        apply lookup_in_first; [|done].
        apply Forall_forall. intros c Hc. by apply Hrej. }
      destruct (py_truth g) eqn:Htruth.
      * by apply (call_body_of_lookup _ _ _ _ g).
      * by apply (call_body_of_false_candidate _ _ _ _ g).
Qed.

(** The wrapper made for a bound method never reaches a candidate: it
    passes the receiver as the keyword [self], which the call of the
    dispatch set refuses as a second value for the parameter [self] of
    [__call__]. *)
Lemma method_wrapper_raises f state pos kw m :
  ∃ e, call_wrapper (method_wrapper f) state pos kw m = (Raise e, m)
       ∧ (e = TypeError ∨ e = AttributeError ∨ ∃ q, e = KeyError q).
Proof.
  simpl. destruct (bind_method_wrapper pos kw) as [[[_self args] kwargs]|];
    [|by eauto].
  destruct (qualname_attr f) as [q|]; [|by eauto].
  destruct (registry state !! q) as [d|]; [|by eauto 6].
  case_bool_decide; [by eauto|].
  unfold OverloadedFunction.call.
  rewrite bool_decide_eq_true_2; [by eauto|]. simpl. apply list_elem_of_here.
Qed.

(** C10 (as amended).  [overload] on a callable that is neither a plain
    function nor a bound method: when it has a [__qualname__] (a class),
    it is appended to the dispatch set of that name, the other names are
    untouched, and the decorator returns [None]; when it has none (an
    ordinary callable instance), [register] raises [AttributeError] and
    nothing is appended. *)
Theorem overload_of_other_callable self f qualname :
  kind f = OtherCallable qualname →
  match qualname with
  | Some q =>
      ∃ self1,
        overload self f = Return (self1, None)
        ∧ candidates self1 q = candidates self q ++ [f]
        ∧ ∀ q', q' ≠ q → registry self1 !! q' = registry self !! q'
  | None =>
      register self f = Raise AttributeError
      ∧ overload self f = Raise AttributeError
  end.
Proof.
  intros Hkind.
  assert (qualname_attr f = qualname) as Hq
    by (unfold qualname_attr; by rewrite Hkind).
  destruct qualname as [q|].
  - eexists. unfold overload, isfunction, ismethod.
    rewrite (register_appends _ _ _ Hq), Hkind. split; [done|]. split.
    + rewrite candidates_insert. by rewrite decide_True.
    + intros q' Hne. simpl. by rewrite lookup_insert_ne.
  - unfold overload. by rewrite (register_without_qualname _ _ Hq).
Qed.

End Controller.

(** * The statements at work on the sample programs *)

(** [add(1, 2)] goes to the two-parameter version, [add(1, 2, 3)] to the
    three-parameter one. *)
Example add_dispatches_by_arity :
  OverloadedFunction.__call__ add_overloads [PyInt 1; PyInt 2] []
    fresh_machine =
    (Return (PyInt 3), mk_machine [] [(add_xy, [PyInt 1; PyInt 2], [])])
  ∧ OverloadedFunction.__call__ add_overloads [PyInt 1; PyInt 2; PyInt 3] []
      fresh_machine =
      (Return (PyInt 6),
       mk_machine [] [(add_xyz, [PyInt 1; PyInt 2; PyInt 3], [])]).
Proof. split; reflexivity. Qed.

(** Registration order breaks ties: with [greet(name, greeting="hi")]
    registered first, [greet("A")] goes to it. *)
Example registration_order_breaks_ties :
  OverloadedFunction.lookup
    (OverloadedFunction.mk [greet_name_greeting; greet_name])
    [PyStr "A"] [] = Some greet_name_greeting
  ∧ OverloadedFunction.lookup greet_overloads [PyStr "A"] []
      = Some greet_name.
Proof. split; reflexivity. Qed.

(** A keyword named [self] never reaches [kwargs] of [__call__]. *)
Example keyword_self_is_refused :
  OverloadedFunction.call greet_overloads [] [("self", PyStr "A")]
    fresh_machine = (Raise TypeError, fresh_machine).
Proof. reflexivity. Qed.



(** [add(1, 2, 3, w=4)]: no overload accepts, nothing is printed or run,
    and the message shows both kinds of arguments. *)
Lemma call_without_accepting_candidate_witness :
  (∀ f, f ∈ OverloadedFunction.registry add_overloads →
        OverloadedFunction.accepts f [PyInt 1; PyInt 2; PyInt 3]
          [("w", PyInt 4)] = false)
  ∧ OverloadedFunction.call add_overloads
      [PyInt 1; PyInt 2; PyInt 3] [("w", PyInt 4)] fresh_machine =
      (Raise (OverloadedFunctionError
                ("Failed to find matching function for given arguments: "
                 +:+ "args=(1, 2, 3), kwargs={'w': 4}")),
       fresh_machine)
  ∧ embeds "'w': 4"
      ("Failed to find matching function for given arguments: "
       +:+ "args=(1, 2, 3), kwargs={'w': 4}").
Proof.
  assert (∀ f, f ∈ OverloadedFunction.registry add_overloads →
               OverloadedFunction.accepts f
                 [PyInt 1; PyInt 2; PyInt 3] [("w", PyInt 4)] = false)
    as Hnone.
  { intros f Hin. change (f ∈ [add_xy; add_xyz]) in Hin.
    apply elem_of_cons in Hin as [->|Hin]; [reflexivity|].
    apply list_elem_of_singleton in Hin as ->. reflexivity. }
  split; [exact Hnone|].
  destruct (call_without_accepting_candidate add_overloads
              [PyInt 1; PyInt 2; PyInt 3] [("w", PyInt 4)] fresh_machine
              Hnone)
    as (_ & _ & msg & -> & Hcall & _ & Hkeywords).
  split.
  - apply Hcall. apply not_elem_of_cons.
    split; [discriminate | apply not_elem_of_nil].
  - apply (Hkeywords "w" (PyInt 4)). apply list_elem_of_here.
Defined.

(** C2, the claim as it stands fails on a keyword named [self]:
    [add(self=1)] passes the test of neither overload, and the invocation
    of the dispatch set raises [TypeError], not
    [OverloadedFunctionError]. *)
Lemma keyword_self_call_without_match_raises_TypeError :
  OverloadedFunction.registry add_overloads = [add_xy; add_xyz]
  ∧ OverloadedFunction.accepts add_xy [] [("self", PyInt 1)] = false
  ∧ OverloadedFunction.accepts add_xyz [] [("self", PyInt 1)] = false
  ∧ OverloadedFunction.call add_overloads [] [("self", PyInt 1)]
      fresh_machine = (Raise TypeError, fresh_machine).
Proof. by split_and!. Qed.

(** The wrapper made when [greet(name)] was decorated: before the second
    overload is registered [greet("A", greeting="yo")] finds no match,
    afterwards the same wrapper runs the second overload. *)
Lemma function_wrapper_dispatches_at_call_time_witness :
  kind greet_name = PlainFunction "greet"
  ∧ ∃ self1 w self2,
      Overloader.overload Overloader.init greet_name = Return (self1, Some w)
      ∧ Overloader.register self1 greet_name_greeting = Return self2
      ∧ Overloader.call_wrapper w self1
          [PyStr "A"] [("greeting", PyStr "yo")] fresh_machine =
          (Raise (OverloadedFunctionError
                    ("Failed to find matching function for given arguments: "
                     +:+ "args=('A',), kwargs={'greeting': 'yo'}")),
           fresh_machine)
      ∧ Overloader.call_wrapper w self2
          [PyStr "A"] [("greeting", PyStr "yo")] fresh_machine =
          (Return PyNone,
           mk_machine ["yo, A"]
             [(greet_name_greeting, [PyStr "A"],
               [("greeting", PyStr "yo")])]).
Proof.
  split; [reflexivity|].
  destruct (function_wrapper_dispatches_at_call_time
              (Overloader.init (value:=pyvalue) (W:=stdout))
              greet_name "greet" eq_refl)
    as (self1 & w & Hoverload & Hcandidates & Hcall & Hlater).
  pose proof (register_appends self1 greet_name_greeting "greet" eq_refl)
    as Hregister.
  eexists self1, w, _. split; [exact Hoverload|]. split; [exact Hregister|].
  split.
  - rewrite Hcall. unfold Overloader.candidates in Hcandidates.
    destruct (Overloader.registry self1 !! "greet") as [[l]|];
      simpl in Hcandidates; [subst l; reflexivity|discriminate].
  - refine (proj2 (Hlater greet_name_greeting _
                     [PyStr "A"] [("greeting", PyStr "yo")] fresh_machine
                     eq_refl Hregister _ _ eq_refl)).
    + apply not_elem_of_cons. split; [discriminate | apply not_elem_of_nil].
    + intros c Hc. rewrite Hcandidates in Hc.
      apply list_elem_of_singleton in Hc as ->. reflexivity.
Defined.

(** Registrations under several names, one of them failing, from an
    empty and from a non-empty registry. *)
Lemma register_keeps_one_dispatch_set_per_name_witness :
  Overloader.registry
    (Overloader.register_all Overloader.init
       [add_xy; greet_name; doubler_instance; add_xyz; greet_name_greeting])
    !! "add" = Some (OverloadedFunction.mk [add_xy; add_xyz])
  ∧ Overloader.registry
      (Overloader.register_all
         (Overloader.mk {["greet" := OverloadedFunction.mk [greet_name]]})
         [add_xy; greet_name_greeting; greet_name])
      !! "greet" =
      Some (OverloadedFunction.mk
              [greet_name; greet_name_greeting; greet_name]).
Proof.
  split.
  - exact (proj2 (proj2 (register_keeps_one_dispatch_set_per_name
             Overloader.init
             [add_xy; greet_name; doubler_instance; add_xyz;
              greet_name_greeting] "add"))).
  - exact (proj2 (proj2 (register_keeps_one_dispatch_set_per_name
             (Overloader.mk {["greet" := OverloadedFunction.mk [greet_name]]})
             [add_xy; greet_name_greeting; greet_name] "greet"))).
Defined.

(** [greet("A", greeting="yo")] on the sample overloads. *)
Lemma greet_keyword_call_resolves_to_second_witness :
  FullArgSpec.args (getfullargspec greet_name) = ["name"]
  ∧ FullArgSpec.varargs (getfullargspec greet_name) = None
  ∧ FullArgSpec.varkw (getfullargspec greet_name) = None
  ∧ FullArgSpec.args (getfullargspec greet_name_greeting)
      = ["name"; "greeting"]
  ∧ OverloadedFunction.accepts greet_name
      [PyStr "A"] [("greeting", PyStr "yo")] = false
  ∧ OverloadedFunction.lookup greet_overloads
      [PyStr "A"] [("greeting", PyStr "yo")] = Some greet_name_greeting.
Proof.
  pose proof (greet_keyword_call_resolves_to_second
                greet_name greet_name_greeting (PyStr "A") (PyStr "yo")
                eq_refl eq_refl eq_refl eq_refl)
    as (_ & Hrejected & _ & _ & Hlookup).
  split_and!; [reflexivity.. | exact Hrejected | exact Hlookup].
Defined.


(** [connect("example.org", timeout=3)] is refused by [connect(host, *, timeout)]. *)
Lemma keyword_only_argument_rejected_witness :
  FullArgSpec.distinct_names (getfullargspec connect)
  ∧ FullArgSpec.varkw (getfullargspec connect) = None
  ∧ "timeout" ∈ FullArgSpec.kwonlyargs (getfullargspec connect)
  ∧ OverloadedFunction.accepts connect
      [PyStr "example.org"] [("timeout", PyInt 3)] = false.
Proof.
  assert (FullArgSpec.distinct_names (getfullargspec connect)) as Hdistinct.
  { apply (bool_decide_unpack _). exact I. }
  split; [exact Hdistinct|]. split; [reflexivity|].
  split; [apply list_elem_of_here|].
  apply (keyword_only_argument_rejected connect
           [PyStr "example.org"] [("timeout", PyInt 3)] "timeout"
           Hdistinct eq_refl); apply list_elem_of_here.
Defined.

(** C5. The wrapper made for the bound method [Greeter().hello], called
    as [w(obj, "A")]: the dispatch set of [Greeter.hello] holds the
    method, which accepts that call shape, but the call ends in the
    [TypeError] of binding the keyword [self], and nothing has run. *)
Theorem method_wrapper_call_raises_TypeError :
  ∃ controller w,
    Overloader.overload Overloader.init Greeter_hello =
      Return (controller, Some w)
    ∧ w = Overloader.method_wrapper Greeter_hello
    ∧ Overloader.candidates controller "Greeter.hello" = [Greeter_hello]
    ∧ OverloadedFunction.accepts Greeter_hello
        [PyObject "Greeter"; PyStr "A"] [] = true
    ∧ Overloader.call_wrapper w controller
        [PyObject "Greeter"; PyStr "A"] [] fresh_machine =
        (Raise TypeError, fresh_machine).
Proof. eexists _, _. split; [reflexivity|]. by split_and!. Qed.

(** C10, the claim as it stands fails on an ordinary callable instance:
    it is neither a function nor a method, and decorating it raises
    [AttributeError] at [function.__qualname__]: nothing is appended and
    nothing, not even [None], is returned. *)
Lemma overload_of_callable_instance_raises :
  isfunction doubler_instance = false
  ∧ ismethod doubler_instance = false
  ∧ Overloader.register Overloader.init doubler_instance
      = Raise AttributeError
  ∧ Overloader.overload Overloader.init doubler_instance
      = Raise AttributeError.
Proof. by split_and!. Qed.

(** Decorating the class [Greeter]. *)
Lemma overload_of_other_callable_witness :
  kind Greeter_class = OtherCallable (Some "Greeter")
  ∧ ∃ self1,
      Overloader.overload Overloader.init Greeter_class = Return (self1, None)
      ∧ Overloader.candidates self1 "Greeter" = [Greeter_class].
Proof.
  split; [reflexivity|].
  destruct (overload_of_other_callable
              (Overloader.init (value:=pyvalue) (W:=stdout))
              Greeter_class (Some "Greeter") eq_refl)
    as (self1 & Hoverload & Hcandidates & _).
  exists self1. split; [exact Hoverload | exact Hcandidates].
Defined.

(** * Further properties of the dispatch set *)

Section DispatchOrder.
Context {value W : Type} `{!PyRepr value}.
Implicit Types (function f g : callable value W).
Implicit Types (self : OverloadedFunction.t value W).
Implicit Types (args : list value) (kwargs : list (string * value)).
Implicit Types (m : machine value W).

Import OverloadedFunction.

Lemma lookup_in_app (before after : list (callable value W)) args kwargs :
  lookup_in (before ++ after) args kwargs =
    match lookup_in before args kwargs with
    | Some f => Some f
    | None => lookup_in after args kwargs
    end.
Proof.
  induction before as [|g before IH]; [done|].
  rewrite <-app_comm_cons, !lookup_in_cons.
  by destruct (accepts g args kwargs).
Qed.

Lemma accepts_same_shape f args args' kwargs kwargs' :
  length args = length args' →
  (∀ name, name ∈ kwargs.*1 ↔ name ∈ kwargs'.*1) →
  accepts f args kwargs = accepts f args' kwargs'.
Proof.
  intros Hlen Hkeys. unfold accepts. rewrite Hlen.
  f_equal. f_equal. apply bool_decide_ext.
  split; intros Hsub name Hname; apply Hsub, Hkeys, Hname.
Qed.

(** X1. Appending a candidate never changes what an already matching call
    resolves to; a call that matched nothing resolves to the new candidate
    exactly when it accepts the call. *)
Theorem lookup_after_register self g args kwargs :
  lookup (register self g) args kwargs =
    match lookup self args kwargs with
    | Some f => Some f
    | None => if accepts g args kwargs then Some g else None
    end.
Proof.
  unfold lookup, register. cbn [registry].
  by rewrite lookup_in_app, lookup_in_cons.
Qed.

(** X2. Registering again a callable that the dispatch set already holds
    stores a second entry and changes no dispatch. *)
Theorem duplicate_registration_changes_no_dispatch self f args kwargs :
  f ∈ registry self →
  registry (register self f) = registry self ++ [f]
  ∧ lookup (register self f) args kwargs = lookup self args kwargs.
Proof.
  intros Hin. split; [done|].
  unfold lookup, register. cbn [registry].
  rewrite lookup_in_app, lookup_in_cons.
  destruct (lookup_in (registry self) args kwargs) eqn:Hlookup; [done|].
  rewrite lookup_in_None in Hlookup. by rewrite (Hlookup f Hin).
Qed.

(** X3. Dispatch looks at the shape of a call only: two calls with the
    same number of positional arguments and the same keyword names resolve
    to the same candidate, whatever the argument values and whatever the
    order of the keywords. *)
Theorem lookup_ignores_argument_values self args args' kwargs kwargs' :
  length args = length args' →
  (∀ name, name ∈ kwargs.*1 ↔ name ∈ kwargs'.*1) →
  lookup self args kwargs = lookup self args' kwargs'.
Proof.
  intros Hlen Hkeys. unfold lookup.
  induction (registry self) as [|f candidates IH]; [done|].
  rewrite !lookup_in_cons, IH.
  by rewrite (accepts_same_shape f args args' kwargs kwargs').
Qed.

(** X4. A call without any argument passes the test of every candidate, so
    on a non-empty dispatch set [lookup] selects the first registered
    candidate, whatever parameters that one declares; [__call__] runs it
    when it is true in a boolean context (as every function object and
    bound method is) and otherwise raises [OverloadedFunctionError]. *)
Theorem empty_call_runs_first_registered f later m :
  accepts f [] [] = true
  ∧ lookup (mk (f :: later)) [] [] = Some f
  ∧ __call__ (mk (f :: later)) [] [] m =
      if py_truth f then call_candidate f [] [] m
      else (Raise (OverloadedFunctionError
                     ("Failed to find matching function for given "
                      +:+ "arguments: args=" +:+ str_tuple []
                      +:+ ", kwargs=" +:+ str_dict [])), m).
Proof.
  assert (accepts f [] [] = true) as Hacc.
  { unfold accepts. apply andb_true_iff. split; apply orb_true_iff; left.
    - apply bool_decide_eq_true. simpl. lia.
    - apply bool_decide_eq_true. by intros name ?%elem_of_nil. }
  assert (lookup (mk (f :: later)) [] [] = Some f) as Hlookup.
  { unfold lookup. cbn [registry]. by rewrite lookup_in_cons, Hacc. }
  split_and!; [done..|]. destruct (py_truth f) eqn:Htruth.
  - by apply (call_body_of_lookup _ _ _ _ f).
  - by apply (call_body_of_false_candidate _ _ _ _ f).
Qed.

(** X14. [__call__] tests the truth of what [lookup] returns, not whether
    it is [None]: a selected candidate that is false in a boolean context
    is not called, and the call raises [OverloadedFunctionError] as if no
    candidate had matched. *)
Theorem false_candidate_is_not_run self args kwargs m f :
  lookup self args kwargs = Some f →
  py_truth f = false →
  accepts f args kwargs = true
  ∧ __call__ self args kwargs m =
      (Raise (OverloadedFunctionError
                ("Failed to find matching function for given arguments: args="
                 +:+ str_tuple args +:+ ", kwargs=" +:+ str_dict kwargs)), m).
Proof.
  intros Hlookup Htruth. split.
  - by destruct (lookup_in_Some _ _ _ _ Hlookup) as (_ & _ & _ & _ & ?).
  - by apply (call_body_of_false_candidate _ _ _ _ f).
Qed.

(** X5. A candidate that declares both varargs and varkw accepts every
    call; the candidates registered after it are never selected. *)
Theorem catch_all_candidate_shadows_later f later args kwargs :
  FullArgSpec.varargs (getfullargspec f) ≠ None →
  FullArgSpec.varkw (getfullargspec f) ≠ None →
  accepts f args kwargs = true
  ∧ lookup (mk (f :: later)) args kwargs = Some f.
Proof.
  intros Hvarargs%py_bool_true Hvarkw%py_bool_true.
  assert (accepts f args kwargs = true) as Hacc.
  { unfold accepts. rewrite Hvarargs, Hvarkw. by rewrite !orb_true_r. }
  split; [done|]. unfold lookup. cbn [registry].
  by rewrite lookup_in_cons, Hacc.
Qed.

Lemma accepts_prefix f g args kwargs :
  FullArgSpec.args (getfullargspec g)
    `prefix_of` FullArgSpec.args (getfullargspec f) →
  FullArgSpec.varargs (getfullargspec g) = None →
  FullArgSpec.varkw (getfullargspec g) = None →
  accepts g args kwargs = true → accepts f args kwargs = true.
Proof.
  intros [more Hmore] Hvarargs Hvarkw. unfold accepts.
  rewrite Hvarargs, Hvarkw, Hmore. simpl. rewrite !orb_false_r.
  rewrite !andb_true_iff, !orb_true_iff, !bool_decide_eq_true.
  intros [Hlen Hsub]. split; left.
  - rewrite length_app. lia.
  - intros name Hname. rewrite drop_app. apply elem_of_app. left.
    by apply Hsub.
Qed.

(** X6. An overload without varargs and varkw whose parameter list is an
    initial part of the parameter list of an overload registered before it
    is unreachable: every call it would accept is accepted by the earlier
    one, and no dispatch changes when it is left out. *)
Theorem prefix_overload_is_shadowed f g before between after args kwargs :
  FullArgSpec.args (getfullargspec g)
    `prefix_of` FullArgSpec.args (getfullargspec f) →
  FullArgSpec.varargs (getfullargspec g) = None →
  FullArgSpec.varkw (getfullargspec g) = None →
  (accepts g args kwargs = true → accepts f args kwargs = true)
  ∧ lookup (mk (before ++ f :: between ++ g :: after)) args kwargs =
      lookup (mk (before ++ f :: between ++ after)) args kwargs.
Proof.
  intros Hprefix Hvarargs Hvarkw.
  pose proof (accepts_prefix f g args kwargs Hprefix Hvarargs Hvarkw) as Himp.
  split; [done|]. unfold lookup. cbn [registry].
  rewrite !(lookup_in_app before), !lookup_in_cons, !lookup_in_app.
  rewrite lookup_in_cons.
  destruct (lookup_in before args kwargs); [done|].
  destruct (accepts f args kwargs) eqn:Hf; [done|].
  destruct (lookup_in between args kwargs); [done|].
  destruct (accepts g args kwargs); [|done].
  by specialize (Himp eq_refl).
Qed.

(** X7. Without varkw, a keyword that names a parameter already taken by
    a positional argument makes the candidate reject the call: the
    keywords are compared with the parameters after the positional ones
    only. *)
Theorem keyword_for_consumed_parameter_rejected f args kwargs name position :
  FullArgSpec.distinct_names (getfullargspec f) →
  FullArgSpec.varkw (getfullargspec f) = None →
  FullArgSpec.args (getfullargspec f) !! position = Some name →
  position < length args →
  name ∈ kwargs.*1 →
  accepts f args kwargs = false.
Proof.
  intros Hdistinct Hvarkw Hposition Hconsumed Hname.
  apply NoDup_app in Hdistinct as (Hnodup & _ & _).
  unfold accepts. rewrite Hvarkw. simpl.
  rewrite (bool_decide_eq_false_2 (_ ⊆ _)); [by rewrite andb_false_r|].
  intros Hsub. apply Hsub, elem_of_drop_lookup in Hname as (j & Hle & Hj).
  pose proof (NoDup_lookup _ _ _ _ Hnodup Hposition Hj). lia.
Qed.

End DispatchOrder.

(** * Further properties of the controller and its wrappers *)

Section ControllerUse.
Context {value W : Type} `{!PyRepr value}.
Implicit Types (function f g : callable value W).
Implicit Types (self state : Overloader.t value W).
Implicit Types (pos : list value) (kw : list (string * value)).
Implicit Types (m : machine value W).

Import Overloader.

Lemma qualname_attr_function f q :
  kind f = PlainFunction q → qualname_attr f = Some q.
Proof. intros Hkind. unfold qualname_attr. by rewrite Hkind. Qed.

(** X8. A call through a function wrapper with a keyword argument named
    [self] never reaches a candidate: the call of the dispatch set raises
    [TypeError], whatever is registered. *)
Theorem function_wrapper_refuses_keyword_self f q state overloaded pos kw m :
  kind f = PlainFunction q →
  registry state !! q = Some overloaded →
  "self" ∈ kw.*1 →
  call_wrapper (function_wrapper f) state pos kw m = (Raise TypeError, m).
Proof.
  intros Hq%qualname_attr_function Hbound Hself. simpl.
  rewrite Hq, Hbound. unfold OverloadedFunction.call.
  by rewrite bool_decide_eq_true_2.
Qed.

(** X9. While the name of a bound method is registered, every call of the
    wrapper made for it raises [TypeError] and runs nothing: either the
    arguments do not bind to [(_self, *args, **kwargs)], or the receiver,
    passed on as the keyword [self], is refused by the dispatch set. *)
Theorem method_wrapper_always_raises_TypeError f q state overloaded pos kw m :
  kind f = BoundMethod q →
  registry state !! q = Some overloaded →
  call_wrapper (method_wrapper f) state pos kw m = (Raise TypeError, m).
Proof.
  intros Hkind Hbound. simpl.
  destruct (bind_method_wrapper pos kw) as [[[_self args] kwargs]|]; [|done].
  unfold qualname_attr. rewrite Hkind, Hbound.
  case_bool_decide; [done|]. unfold OverloadedFunction.call.
  rewrite bool_decide_eq_true_2; [done|]. simpl. apply list_elem_of_here.
Qed.

(** X10. Two plain functions of one qualified name decorated one after the
    other end up, in that order, behind the earlier candidates of the
    name, and the two wrappers returned are interchangeable: in every
    state and on every call they do the same. *)
Theorem wrappers_of_one_name_agree self f g q :
  kind f = PlainFunction q →
  kind g = PlainFunction q →
  ∃ self1 w1 self2 w2,
    overload self f = Return (self1, Some w1)
    ∧ overload self1 g = Return (self2, Some w2)
    ∧ candidates self2 q = candidates self q ++ [f; g]
    ∧ ∀ state pos kw m,
        call_wrapper w1 state pos kw m = call_wrapper w2 state pos kw m.
Proof.
  intros Hf Hg. eexists _, _, _, _.
  split; [by apply overload_of_function|].
  split; [by apply overload_of_function|]. split.
  - rewrite !candidates_insert, !decide_True by done. by rewrite <-app_assoc.
  - intros state pos kw m. simpl.
    by rewrite (qualname_attr_function f q), (qualname_attr_function g q).
Qed.

(** X11. Once a plain function is decorated, no later sequence of
    registrations unbinds its name or moves it: the dispatch set of the
    name still starts with the candidates it had right after the
    decoration, and a call of the wrapper is a call of that dispatch set
    (never a [KeyError]). *)
Theorem decorated_function_stays_reachable self f q functions :
  kind f = PlainFunction q →
  ∃ self1 w overloaded,
    overload self f = Return (self1, Some w)
    ∧ registry (register_all self1 functions) !! q = Some overloaded
    ∧ candidates self q ++ [f]
        `prefix_of` OverloadedFunction.registry overloaded
    ∧ ∀ pos kw m,
        call_wrapper w (register_all self1 functions) pos kw m =
          OverloadedFunction.call overloaded pos kw m.
Proof.
  intros Hkind. eexists _, _, _.
  split; [by apply overload_of_function|].
  assert (∀ reg l,
            registry (register_all
                        (mk (<[q := OverloadedFunction.mk l]> reg)) functions)
              !! q =
            Some (OverloadedFunction.mk
                    (l ++ filter (λ f, qualname_attr f = Some q) functions)))
    as Hlookup.
  { intros reg l. rewrite register_all_lookup. simpl.
    by rewrite lookup_insert_eq. }
  split; [apply Hlookup|]. split.
  - simpl. by eexists.
  - intros pos kw m. simpl.
    by rewrite (qualname_attr_function f q), Hlookup.
Qed.

(** X12. A plain function decorated under a name not yet registered: a
    call of the wrapper without a keyword [self] is the call of the
    function itself when the function passes the acceptance test, and
    otherwise raises [OverloadedFunctionError] without running it. *)
Theorem single_overload_is_transparent self f q pos kw m :
  kind f = PlainFunction q →
  registry self !! q = None →
  "self" ∉ kw.*1 →
  ∃ self1 w,
    overload self f = Return (self1, Some w)
    ∧ call_wrapper w self1 pos kw m =
        if OverloadedFunction.accepts f pos kw
        then call_candidate f pos kw m
        else (Raise (OverloadedFunctionError
                       ("Failed to find matching function for given "
                        +:+ "arguments: args=" +:+ str_tuple pos
                        +:+ ", kwargs=" +:+ str_dict kw)), m).
Proof.
  intros Hkind Hfresh Hself. eexists _, _.
  split; [by apply overload_of_function|]. simpl.
  rewrite (qualname_attr_function f q), lookup_insert_eq by done.
  rewrite call_without_keyword_self by done.
  unfold candidates. rewrite Hfresh. cbn [app].
  assert (py_truth f = true) as Htruth
    by (unfold py_truth; by rewrite Hkind).
  destruct (OverloadedFunction.accepts f pos kw) eqn:Hacc.
  - apply (call_body_of_lookup _ _ _ _ f); [|done].
    unfold OverloadedFunction.lookup. cbn [OverloadedFunction.registry].
    by rewrite lookup_in_cons, Hacc.
  - apply call_body_without_candidate.
    unfold OverloadedFunction.lookup. cbn [OverloadedFunction.registry].
    by rewrite lookup_in_cons, Hacc.
Qed.

(** X13. The controller never holds an empty dispatch set: when every name
    of the registry has at least one candidate, so it is after any
    sequence of registrations (a dispatch set is only created to receive
    a candidate, and none is ever removed). *)
Theorem register_all_keeps_dispatch_sets_nonempty self functions :
  (∀ q d, registry self !! q = Some d → OverloadedFunction.registry d ≠ []) →
  ∀ q d, registry (register_all self functions) !! q = Some d →
         OverloadedFunction.registry d ≠ [].
Proof.
  intros Hnonempty q d. rewrite register_all_lookup.
  destruct (registry self !! q) as [d0|] eqn:Hd0.
  - intros [= <-]. simpl. intros [Hnil _]%app_eq_nil.
    by apply (Hnonempty q d0).
  - destruct (filter _ functions); [done|]. by intros [= <-].
Qed.

End ControllerUse.

(** * The further properties at work on the sample programs *)

(** Re-registering [greet(name)] after both overloads. *)
Lemma duplicate_registration_changes_no_dispatch_witness :
  greet_name ∈ OverloadedFunction.registry greet_overloads
  ∧ OverloadedFunction.registry
      (OverloadedFunction.register greet_overloads greet_name) =
      [greet_name; greet_name_greeting; greet_name]
  ∧ OverloadedFunction.lookup
      (OverloadedFunction.register greet_overloads greet_name)
      [PyStr "A"] [("greeting", PyStr "yo")] =
      OverloadedFunction.lookup greet_overloads
        [PyStr "A"] [("greeting", PyStr "yo")].
Proof.
  assert (greet_name ∈ OverloadedFunction.registry greet_overloads) as Hin
    by apply list_elem_of_here.
  split; [exact Hin|].
  exact (duplicate_registration_changes_no_dispatch greet_overloads
           greet_name [PyStr "A"] [("greeting", PyStr "yo")] Hin).
Defined.

(** [add(1, 2)] and [add("a", None)] resolve alike. *)
Lemma lookup_ignores_argument_values_witness :
  length [PyInt 1; PyInt 2] = length [PyStr "a"; PyNone]
  ∧ OverloadedFunction.lookup add_overloads [PyInt 1; PyInt 2] [] =
      OverloadedFunction.lookup add_overloads [PyStr "a"; PyNone] []
  ∧ OverloadedFunction.lookup add_overloads [PyStr "a"; PyNone] []
      = Some add_xy.
Proof.
  split; [reflexivity|]. split; [|reflexivity].
  apply (lookup_ignores_argument_values add_overloads
           [PyInt 1; PyInt 2] [PyStr "a"; PyNone] [] []); [reflexivity|].
  intros name. reflexivity.
Defined.

(** [add( *args, **kwargs)] registered first takes [add(1, 2)] too. *)
Lemma catch_all_candidate_shadows_later_witness :
  FullArgSpec.varargs (getfullargspec add_anything) ≠ None
  ∧ FullArgSpec.varkw (getfullargspec add_anything) ≠ None
  ∧ OverloadedFunction.lookup
      (OverloadedFunction.mk [add_anything; add_xy; add_xyz])
      [PyInt 1; PyInt 2] [] = Some add_anything.
Proof.
  assert (FullArgSpec.varargs (getfullargspec add_anything) ≠ None)
    as Hvarargs by discriminate.
  assert (FullArgSpec.varkw (getfullargspec add_anything) ≠ None)
    as Hvarkw by discriminate.
  split; [exact Hvarargs|]. split; [exact Hvarkw|].
  exact (proj2 (catch_all_candidate_shadows_later add_anything
                  [add_xy; add_xyz] [PyInt 1; PyInt 2] [] Hvarargs Hvarkw)).
Defined.

(** [greet(name)] registered after [greet(name, greeting="hi")] is dead. *)
Lemma prefix_overload_is_shadowed_witness :
  FullArgSpec.args (getfullargspec greet_name)
    `prefix_of` FullArgSpec.args (getfullargspec greet_name_greeting)
  ∧ OverloadedFunction.lookup
      (OverloadedFunction.mk [greet_name_greeting; greet_name])
      [PyStr "A"] [] =
      OverloadedFunction.lookup
        (OverloadedFunction.mk [greet_name_greeting]) [PyStr "A"] [].
Proof.
  assert (FullArgSpec.args (getfullargspec greet_name)
            `prefix_of` FullArgSpec.args (getfullargspec greet_name_greeting))
    as Hprefix by (by exists ["greeting"]).
  split; [exact Hprefix|].
  exact (proj2 (prefix_overload_is_shadowed greet_name_greeting greet_name
                  [] [] [] [PyStr "A"] [] Hprefix eq_refl eq_refl)).
Defined.

(** [greet("A", name="B")]: [name] is given twice. *)
Lemma keyword_for_consumed_parameter_rejected_witness :
  FullArgSpec.distinct_names (getfullargspec greet_name_greeting)
  ∧ FullArgSpec.args (getfullargspec greet_name_greeting) !! 0 = Some "name"
  ∧ OverloadedFunction.accepts greet_name_greeting
      [PyStr "A"] [("name", PyStr "B")] = false.
Proof.
  assert (FullArgSpec.distinct_names (getfullargspec greet_name_greeting))
    as Hdistinct.
  { apply (bool_decide_unpack _). exact I. }
  split; [exact Hdistinct|]. split; [reflexivity|].
  apply (keyword_for_consumed_parameter_rejected greet_name_greeting
           [PyStr "A"] [("name", PyStr "B")] "name" 0
           Hdistinct eq_refl eq_refl).
  - simpl. lia.
  - apply list_elem_of_here.
Defined.

(** [greet(self="A")] through the wrapper of [greet]. *)
Lemma function_wrapper_refuses_keyword_self_witness :
  kind greet_name = PlainFunction "greet"
  ∧ Overloader.call_wrapper (Overloader.function_wrapper greet_name)
      (Overloader.mk {["greet" := greet_overloads]})
      [] [("self", PyStr "A")] fresh_machine =
      (Raise TypeError, fresh_machine).
Proof.
  split; [reflexivity|].
  apply (function_wrapper_refuses_keyword_self greet_name "greet"
           (Overloader.mk {["greet" := greet_overloads]}) greet_overloads
           [] [("self", PyStr "A")] fresh_machine eq_refl).
  - reflexivity.
  - apply list_elem_of_here.
Defined.

(** The wrapper of [Greeter().hello], called with a receiver only. *)
Lemma method_wrapper_always_raises_TypeError_witness :
  kind Greeter_hello = BoundMethod "Greeter.hello"
  ∧ Overloader.call_wrapper (Overloader.method_wrapper Greeter_hello)
      (Overloader.mk
         {["Greeter.hello" := OverloadedFunction.mk [Greeter_hello]]})
      [PyObject "Greeter"] [("name", PyStr "A")] fresh_machine =
      (Raise TypeError, fresh_machine).
Proof.
  split; [reflexivity|].
  apply (method_wrapper_always_raises_TypeError Greeter_hello "Greeter.hello"
           (Overloader.mk
              {["Greeter.hello" := OverloadedFunction.mk [Greeter_hello]]})
           (OverloadedFunction.mk [Greeter_hello])
           [PyObject "Greeter"] [("name", PyStr "A")] fresh_machine
           eq_refl).
  reflexivity.
Defined.

(** The wrappers made for [add(x, y)] and [add(x, y, z)]. *)
Lemma wrappers_of_one_name_agree_witness :
  kind add_xy = PlainFunction "add"
  ∧ kind add_xyz = PlainFunction "add"
  ∧ ∃ self1 w1 self2 w2,
      Overloader.overload Overloader.init add_xy = Return (self1, Some w1)
      ∧ Overloader.overload self1 add_xyz = Return (self2, Some w2)
      ∧ Overloader.candidates self2 "add" = [add_xy; add_xyz]
      ∧ Overloader.call_wrapper w1 self2 [PyInt 1; PyInt 2; PyInt 3] []
          fresh_machine =
          Overloader.call_wrapper w2 self2 [PyInt 1; PyInt 2; PyInt 3] []
            fresh_machine.
Proof.
  split; [reflexivity|]. split; [reflexivity|].
  destruct (wrappers_of_one_name_agree
              (Overloader.init (value:=pyvalue) (W:=stdout))
              add_xy add_xyz "add" eq_refl eq_refl)
    as (self1 & w1 & self2 & w2 & Hfirst & Hsecond & Hcandidates & Hagree).
  exists self1, w1, self2, w2.
  split; [exact Hfirst|]. split; [exact Hsecond|].
  split; [exact Hcandidates | apply Hagree].
Defined.

(** [greet(name)] decorated, then four more registrations. *)
Lemma decorated_function_stays_reachable_witness :
  kind greet_name = PlainFunction "greet"
  ∧ ∃ self1 w overloaded,
      Overloader.overload Overloader.init greet_name = Return (self1, Some w)
      ∧ Overloader.registry
          (Overloader.register_all self1
             [add_xy; greet_name_greeting; doubler_instance; Greeter_class])
          !! "greet" = Some overloaded
      ∧ [greet_name] `prefix_of` OverloadedFunction.registry overloaded.
Proof.
  split; [reflexivity|].
  destruct (decorated_function_stays_reachable
              (Overloader.init (value:=pyvalue) (W:=stdout)) greet_name
              "greet"
              [add_xy; greet_name_greeting; doubler_instance; Greeter_class]
              eq_refl)
    as (self1 & w & overloaded & Hoverload & Hbound & Hprefix & _).
  exists self1, w, overloaded.
  split; [exact Hoverload|]. split; [exact Hbound | exact Hprefix].
Defined.

(** [add(x, y)] alone behind its wrapper: [add(1, 2)] is the function's
    own call, [add(1, 2, 3)] is refused before the function runs. *)
Lemma single_overload_is_transparent_witness :
  kind add_xy = PlainFunction "add"
  ∧ (∃ self1 w,
       Overloader.overload Overloader.init add_xy = Return (self1, Some w)
       ∧ Overloader.call_wrapper w self1 [PyInt 1; PyInt 2] [] fresh_machine =
           (Return (PyInt 3),
            mk_machine [] [(add_xy, [PyInt 1; PyInt 2], [])]))
  ∧ (∃ self1 w,
       Overloader.overload Overloader.init add_xy = Return (self1, Some w)
       ∧ Overloader.call_wrapper w self1 [PyInt 1; PyInt 2; PyInt 3] []
           fresh_machine =
           (Raise (OverloadedFunctionError
                     ("Failed to find matching function for given "
                      +:+ "arguments: args=(1, 2, 3), kwargs={}")),
            fresh_machine)).
Proof.
  split; [reflexivity|]. split.
  - destruct (single_overload_is_transparent
                (Overloader.init (value:=pyvalue) (W:=stdout)) add_xy "add"
                [PyInt 1; PyInt 2] [] fresh_machine eq_refl
                (lookup_empty _) (not_elem_of_nil _))
      as (self1 & w & Hoverload & Hcall).
    exists self1, w. split; [exact Hoverload | exact Hcall].
  - destruct (single_overload_is_transparent
                (Overloader.init (value:=pyvalue) (W:=stdout)) add_xy "add"
                [PyInt 1; PyInt 2; PyInt 3] [] fresh_machine eq_refl
                (lookup_empty _) (not_elem_of_nil _))
      as (self1 & w & Hoverload & Hcall).
    exists self1, w. split; [exact Hoverload | exact Hcall].
Defined.

(** A registry that holds [greet], then three registrations, one of them
    failing. *)
Lemma register_all_keeps_dispatch_sets_nonempty_witness :
  (∀ q d,
     Overloader.registry
       (Overloader.mk {["greet" := OverloadedFunction.mk [greet_name]]})
       !! q = Some d →
     OverloadedFunction.registry d ≠ [])
  ∧ ∀ q d,
      Overloader.registry
        (Overloader.register_all
           (Overloader.mk {["greet" := OverloadedFunction.mk [greet_name]]})
           [add_xy; doubler_instance; greet_name_greeting])
        !! q = Some d →
      OverloadedFunction.registry d ≠ [].
Proof.
  assert (∀ q d,
            Overloader.registry
              (Overloader.mk
                 {["greet" := OverloadedFunction.mk [greet_name]]})
              !! q = Some d →
            OverloadedFunction.registry d ≠ []) as Hnonempty.
  { intros q d Hd. cbn [Overloader.registry] in Hd.
    apply lookup_singleton_Some in Hd as [_ <-]. discriminate. }
  split; [exact Hnonempty|].
  exact (register_all_keeps_dispatch_sets_nonempty _
           [add_xy; doubler_instance; greet_name_greeting] Hnonempty).
Defined.

(** An empty [Handlers] instance registered alone, called with one
    event: it is selected, and not run. *)
Lemma false_candidate_is_not_run_witness :
  OverloadedFunction.lookup (OverloadedFunction.mk [empty_handlers])
    [PyStr "click"] [] = Some empty_handlers
  ∧ py_truth empty_handlers = false
  ∧ OverloadedFunction.__call__ (OverloadedFunction.mk [empty_handlers])
      [PyStr "click"] [] fresh_machine =
      (Raise (OverloadedFunctionError
                ("Failed to find matching function for given arguments: "
                 +:+ "args=('click',), kwargs={}")),
       fresh_machine).
Proof.
  split; [reflexivity|]. split; [reflexivity|].
  exact (proj2 (false_candidate_is_not_run
                  (OverloadedFunction.mk [empty_handlers])
                  [PyStr "click"] [] fresh_machine empty_handlers
                  eq_refl eq_refl)).
Defined.
